(** * Notes: a console note-taking utility over SQLite

    A shallow embedding of [main.py]: the storage layer [NotesManager], the
    facade [NotesApp] and the interactive loop [main], together with the part
    of the [sqlite3] library that the six SQL statements of the program use.

    How the program is embedded.

    - A Python method that mutates [self] and may raise is a function
      [self -> result (value * self)] (module [Py]).
    - The database behind a connection is the one table [notes]: its rows in
      rowid order and the counter that [AUTOINCREMENT] keeps in
      [sqlite_sequence].
    - A text value is a [string]: the bytes of its UTF-8 encoding, which is
      how Python hands a [str] to SQLite.  A string that is no UTF-8 encoding
      stands for no [str].
    - SQLite's [INTEGER] is a 64-bit integer.  It is embedded as [Z], with
      the range checks where the library makes them: a Python [int] bound to
      a [?] ([OverflowError]), the rowid of a new row (the database is full)
      and the length of a LIKE pattern.  The largest length of a string
      (10^9 bytes) and a full disk are outside the embedding.
    - Where SQLite compares the integer column [id] with a text that spells a
      number with a fraction or an exponent, it goes through a floating-point
      number.  That one step is not embedded; it is the parameter [Engine].
    - [input()] reads the next line of the input and raises [EOFError] at its
      end: a run of the loop is given the lines of the whole input.
      Interrupts are not events of the embedding.
    - An exception is raised by a statement before it changes the database:
      [Raise] leaves the store as the call found it.  What a failed statement
      leaves behind in the library is its last error code, which can only
      show in the kind of exception of a later statement that cannot bind a
      parameter; the embedding gives that statement the exception that it
      raises when no statement failed before it, [OverflowError].
    - The file behind a connection is a new one, or one that holds the table
      of this program; a file that is no SQLite database, or holds a table
      [notes] with other columns, is outside the embedding. *)

From Stdlib Require Import ZArith List String Ascii Bool Lia Sorted.
Import ListNotations.

#[local] Open Scope string_scope.
#[local] Open Scope list_scope.
#[local] Open Scope Z_scope.

(** ** Python: results and the state-and-exception monad *)

Module Py.

(** The exceptions that the statements of this program can run into. *)
Inductive exn : Type :=
| ProgrammingError   (* sqlite3: Cannot operate on a closed database. *)
| OperationalError   (* sqlite3: no such table: notes; database or disk is
                        full; LIKE or GLOB pattern too complex *)
| OverflowError      (* Python int too large to convert to SQLite INTEGER *)
| IndexError         (* tuple index out of range *)
| EOFError.          (* EOF when reading a line *)

Inductive result (A : Type) : Type :=
| Ok (a : A)
| Raise (e : exn).

Arguments Ok {A} a.
Arguments Raise {A} e.

(** A method of an object of type [S] that returns an [A]. *)
Definition M (S A : Type) : Type := S -> result (A * S).

Definition ret {S A : Type} (a : A) : M S A := fun s => Ok (a, s).

Definition bind {S A B : Type} (m : M S A) (k : A -> M S B) : M S B :=
  fun s =>
    match m s with
    | Ok (a, s') => k a s'
    | Raise e => Raise e
    end.

End Py.

Import Py.

Notation "x <- m ;; k" := (bind m (fun x => k))
  (at level 61, m at next level, right associativity).
Notation "m ;; k" := (bind m (fun _ => k))
  (at level 61, right associativity).

(** ** The part of SQLite that the program uses *)

(** The engine's conversion of a text that spells a real number (a fraction
    or an exponent is present) to an integer key: SQLite reads the text as an
    IEEE double and keeps it as a key when that double is a whole number.
    Floating point is not embedded, so the conversion is a parameter. *)
Class Engine : Type := real_literal_rowid : string -> option Z.

Module sqlite3.

(** *** Values *)

(** The values of the columns of [notes], and of the parameters bound to the
    [?] of a statement: Python [int] and [str]. *)
Inductive sqlvalue : Type :=
| VInt (z : Z)
| VText (s : string).

(** A row of a result set: a Python tuple. *)
Definition row : Type := list sqlvalue.

(** The integers of SQLite are the signed 64-bit ones. *)
Definition LARGEST_INT64 : Z := 9223372036854775807.

Definition SMALLEST_INT64 : Z := -9223372036854775808.

Definition fits_int64 (z : Z) : bool :=
  (SMALLEST_INT64 <=? z) && (z <=? LARGEST_INT64).

(** Whether a value can be bound to a [?]: a Python [int] must be a 64-bit
    integer. *)
Definition bindable (v : sqlvalue) : bool :=
  match v with
  | VInt z => fits_int64 z
  | VText _ => true
  end.

Definition chars (s : string) : list ascii := list_ascii_of_string s.

(** *** Characters, as [sqlite3Isspace], [sqlite3Isdigit], [sqlite3Tolower] *)

Definition code (c : ascii) : Z := Z.of_N (N_of_ascii c).

Definition isspace (c : ascii) : bool :=
  (code c =? 32) || ((9 <=? code c) && (code c <=? 13)).

Definition isdigit (c : ascii) : bool :=
  (48 <=? code c) && (code c <=? 57).

Definition tolower (c : ascii) : ascii :=
  if (65 <=? code c) && (code c <=? 90)
  then ascii_of_N (Z.to_N (code c + 32))
  else c.

Fixpoint take_while (p : ascii -> bool) (l : list ascii) : list ascii :=
  match l with
  | [] => []
  | c :: l' => if p c then c :: take_while p l' else []
  end.

Fixpoint drop_while (p : ascii -> bool) (l : list ascii) : list ascii :=
  match l with
  | [] => []
  | c :: l' => if p c then drop_while p l' else l
  end.

Definition is_nil {A : Type} (l : list A) : bool :=
  match l with [] => true | _ :: _ => false end.

(** *** Numeric affinity: a text compared with the integer column [id]

    [WHERE id = ?] with a text parameter: the column has INTEGER affinity, so
    the text is converted to a number when it is a well-formed integer or real
    literal, leading and trailing white space ignored; any other text equals
    no integer. *)

(** An optional sign: whether it is a minus, and what follows it. *)
Definition strip_sign (l : list ascii) : bool * list ascii :=
  match l with
  | "-"%char :: l' => (true, l')
  | "+"%char :: l' => (false, l')
  | _ => (false, l)
  end.

Definition digit_value (c : ascii) : Z := code c - 48.

Definition digits_value (ds : list ascii) : Z :=
  fold_left (fun acc c => 10 * acc + digit_value c) ds 0.

(** [ws* [+-] digit+ ws*]: the integer the text spells. *)
Definition integer_literal (l : list ascii) : option Z :=
  let (neg, l1) := strip_sign (drop_while isspace l) in
  let ds := take_while isdigit l1 in
  if is_nil ds then None
  else if is_nil (drop_while isspace (drop_while isdigit l1))
       then Some (if neg then - digits_value ds else digits_value ds)
       else None.

(** The fraction [. digit*] after the integer part, when there is one:
    whether there is, its digits, and what follows. *)
Definition scan_fraction (l : list ascii) : bool * list ascii * list ascii :=
  match l with
  | "."%char :: l' => (true, take_while isdigit l', drop_while isdigit l')
  | _ => (false, [], l)
  end.

Definition is_e (c : ascii) : bool := (code c =? 101) || (code c =? 69).

(** The exponent [(e|E) [+-] digit+], when there is one: whether there is,
    whether it has a digit, and what follows. *)
Definition scan_exponent (l : list ascii) : bool * bool * list ascii :=
  match l with
  | c :: l' =>
      if is_e c
      then let (_, l1) := strip_sign l' in
           (true, negb (is_nil (take_while isdigit l1)), drop_while isdigit l1)
      else (false, true, l)
  | [] => (false, true, l)
  end.

(** [ws* [+-] (digit+ [. digit*] | . digit+) [(e|E) [+-] digit+] ws*] with a
    fraction or an exponent present: a real literal. *)
Definition real_literal (l : list ascii) : bool :=
  let (_, l1) := strip_sign (drop_while isspace l) in
  let d1 := take_while isdigit l1 in
  let '(dot, d2, l2) := scan_fraction (drop_while isdigit l1) in
  let '(e, e_digits, l3) := scan_exponent l2 in
  (dot || e) && negb (is_nil (d1 ++ d2)) && e_digits
  && is_nil (drop_while isspace l3).

(** The integer key that a text denotes, if any. *)
Definition text_rowid `{engine : Engine} (s : string) : option Z :=
  match integer_literal (chars s) with
  | Some z => Some z
  | None => if real_literal (chars s) then real_literal_rowid s else None
  end.

(** [id = ?] for the value of [id] in a row and the parameter bound. *)
Definition rowid_eq `{engine : Engine} (note_id : sqlvalue) (id : Z) : bool :=
  match note_id with
  | VInt z => z =? id
  | VText s =>
      match text_rowid s with
      | Some z => z =? id
      | None => false
      end
  end.

(** *** LIKE

    [text LIKE pattern], without ESCAPE: [%] stands for any sequence of
    characters, [_] for any one character, and any other character for
    itself, upper and lower case ASCII letters taken as equal.  Both operands
    are read as C strings, up to their first NUL byte, and character by
    character of their UTF-8 encoding.  A pattern of more than 50000 bytes is
    an error. *)

Definition c_string (l : list ascii) : list ascii :=
  take_while (fun c => negb (code c =? 0)) l.

(** The first byte of a character of two bytes or more, and the bytes that
    can follow it. *)
Definition is_lead (c : ascii) : bool := 192 <=? code c.

Definition is_continuation (c : ascii) : bool :=
  (128 <=? code c) && (code c <=? 191).

(** [sqlite3Utf8Read], all along a text: a byte from 0xC0 on takes the
    continuation bytes that follow it, which are then no characters of their
    own; any other byte is a character. *)
Fixpoint utf8_chars (l : list ascii) : list (list ascii) :=
  match l with
  | [] => []
  | b :: l' =>
      if is_lead b
      then let tail := take_while is_continuation l' in
           (b :: tail) :: skipn (List.length tail) (utf8_chars l')
      else [b] :: utf8_chars l'
  end.

(** The character that is the one byte [b]. *)
Definition is_char (b : ascii) (c : list ascii) : bool :=
  match c with
  | [x] => Ascii.eqb x b
  | _ => false
  end.

(** The same character, up to the case of an ASCII letter. *)
Fixpoint same_char (c d : list ascii) : bool :=
  match c, d with
  | [], [] => true
  | x :: c', y :: d' => Ascii.eqb (tolower x) (tolower y) && same_char c' d'
  | _, _ => false
  end.

Fixpoint pattern_compare (pattern text : list (list ascii)) : bool :=
  match pattern with
  | [] => is_nil text
  | c :: pattern' =>
      if is_char "%" c then
        (fix any (text : list (list ascii)) : bool :=
           pattern_compare pattern' text
           || match text with
              | [] => false
              | _ :: text' => any text'
              end) text
      else if is_char "_" c then
        match text with
        | [] => false
        | _ :: text' => pattern_compare pattern' text'
        end
      else
        match text with
        | [] => false
        | d :: text' => same_char c d && pattern_compare pattern' text'
        end
  end.

(** Whether the text matches the pattern. *)
Definition like (text pattern : string) : bool :=
  pattern_compare (utf8_chars (c_string (chars pattern)))
                  (utf8_chars (c_string (chars text))).

Definition SQLITE_MAX_LIKE_PATTERN_LENGTH : Z := 50000.

Definition pattern_too_long (pattern : string) : bool :=
  SQLITE_MAX_LIKE_PATTERN_LENGTH <? Z.of_nat (String.length pattern).

(** [likeFunc]: the SQL function behind [text LIKE pattern]. *)
Definition likeFunc (text pattern : string) : result bool :=
  if pattern_too_long pattern then Raise OperationalError
  else Ok (like text pattern).

(** *** The table [notes]

    [CREATE TABLE notes (id INTEGER PRIMARY KEY AUTOINCREMENT, title TEXT,
    content TEXT)]: [id] is the rowid, the rows are kept in rowid order, and
    [seq] is the largest rowid that the table has ever given, which
    [AUTOINCREMENT] records in [sqlite_sequence] (0 as long as there is no
    record). *)

Record note : Type := { note_id : Z; note_title : string; note_content : string }.

Record table : Type := { rows : list note; seq : Z }.

Definition empty_table : table := {| rows := []; seq := 0 |}.

(** What a database file holds: [None] when it has no table [notes] yet. *)
Definition database : Type := option table.

(** The largest rowid in the table, when it has a row. *)
Fixpoint largest_rowid (rs : list note) : option Z :=
  match rs with
  | [] => None
  | r :: rs' =>
      Some match largest_rowid rs' with
           | Some m => Z.max (note_id r) m
           | None => note_id r
           end
  end.

(** [OP_NewRowid] with [AUTOINCREMENT]: there is no rowid left once the
    largest 64-bit integer is in the table or was ever given. *)
Definition full (t : table) : bool :=
  (seq t =? LARGEST_INT64)
  || match largest_rowid (rows t) with
     | Some m => LARGEST_INT64 <=? m
     | None => false
     end.

(** The rowid of the next row inserted: one more than the largest rowid in
    the table, 1 in an empty table, and in any case more than the largest
    rowid ever given. *)
Definition new_rowid (t : table) : Z :=
  Z.max match largest_rowid (rows t) with
        | Some m => m + 1
        | None => 1
        end
        (seq t + 1).

(** The place of a row in rowid order. *)
Fixpoint insert_row (r : note) (rs : list note) : list note :=
  match rs with
  | [] => [r]
  | r' :: rs' =>
      if note_id r <? note_id r' then r :: rs else r' :: insert_row r rs'
  end.

(** *** Connections, cursors and statements *)

Record Connection : Type := { is_open : bool; notes : database }.

(** A cursor: the rows of the last statement not yet fetched, and
    [lastrowid].  After every statement [lastrowid] is the rowid of the last
    row inserted on the connection, 0 when there was none; the connection
    has this one cursor. *)
Record Cursor : Type := { pending : list row; lastrowid : option Z }.

(** [sqlite3.connect(db_file)], for what the file holds. *)
Definition connect (db_file : database) : Connection :=
  {| is_open := true; notes := db_file |}.

(** [conn.cursor()] *)
Definition new_cursor : Cursor := {| pending := []; lastrowid := None |}.

(** The statements of the program, with the parameters bound to their [?]. *)
Inductive statement : Type :=
| CREATE_TABLE_IF_NOT_EXISTS
    (* CREATE TABLE IF NOT EXISTS notes (id INTEGER PRIMARY KEY
       AUTOINCREMENT, title TEXT, content TEXT) *)
| INSERT (title content : string)
    (* INSERT INTO notes (title, content) VALUES (?, ?) *)
| SELECT_id_title
    (* SELECT id, title FROM notes *)
| SELECT_title_content_WHERE_id (note_id : sqlvalue)
    (* SELECT title, content FROM notes WHERE id = ? *)
| DELETE_WHERE_id (note_id : sqlvalue)
    (* DELETE FROM notes WHERE id = ? *)
| SELECT_id_title_WHERE_LIKE (content_pattern title_pattern : string).
    (* SELECT id, title FROM notes WHERE content LIKE ? OR title LIKE ? *)

Definition id_title (r : note) : row := [VInt (note_id r); VText (note_title r)].

Definition title_content (r : note) : row :=
  [VText (note_title r); VText (note_content r)].

(** The values bound to the [?] of a statement, in their order. *)
Definition parameters (st : statement) : list sqlvalue :=
  match st with
  | CREATE_TABLE_IF_NOT_EXISTS | SELECT_id_title => []
  | INSERT title content => [VText title; VText content]
  | SELECT_title_content_WHERE_id note_id | DELETE_WHERE_id note_id => [note_id]
  | SELECT_id_title_WHERE_LIKE content_pattern title_pattern =>
      [VText content_pattern; VText title_pattern]
  end.

(** [content LIKE ? OR title LIKE ?] on a row: the second LIKE is evaluated
    when the first one is false. *)
Definition content_or_title_like
  (content_pattern title_pattern : string) (r : note) : result bool :=
  match likeFunc (note_content r) content_pattern with
  | Raise e => Raise e
  | Ok true => Ok true
  | Ok false => likeFunc (note_title r) title_pattern
  end.

(** The rows that a WHERE clause keeps, in the order of the table; the
    clause is evaluated row after row. *)
Fixpoint select_where (clause : note -> result bool) (rs : list note)
  : result (list note) :=
  match rs with
  | [] => Ok []
  | r :: rs' =>
      match clause r with
      | Raise e => Raise e
      | Ok keep =>
          match select_where clause rs' with
          | Raise e => Raise e
          | Ok kept => Ok (if keep then r :: kept else kept)
          end
      end
  end.

Section statements.
Context `{engine : Engine}.

(** A statement on the table: the table after it, its result rows, and the
    rowid of the row it inserted. *)
Definition step (st : statement) (t : table)
  : result (table * list row * option Z) :=
  match st with
  | CREATE_TABLE_IF_NOT_EXISTS => Ok (t, [], None)
  | INSERT title content =>
      if full t then Raise OperationalError
      else
        let id := new_rowid t in
        Ok ({| rows := insert_row {| note_id := id; note_title := title;
                                     note_content := content |} (rows t);
               seq := id |}, [], Some id)
  | SELECT_id_title => Ok (t, map id_title (rows t), None)
  | SELECT_title_content_WHERE_id p =>
      Ok (t, map title_content (filter (fun r => rowid_eq p (note_id r)) (rows t)),
          None)
  | DELETE_WHERE_id p =>
      Ok ({| rows := filter (fun r => negb (rowid_eq p (note_id r))) (rows t);
             seq := seq t |}, [], None)
  | SELECT_id_title_WHERE_LIKE content_pattern title_pattern =>
      match select_where (content_or_title_like content_pattern title_pattern)
                         (rows t) with
      | Raise e => Raise e
      | Ok kept => Ok (t, map id_title kept, None)
      end
  end.

(** [cursor.execute(sql, parameters)] on the cursor of the connection: the
    connection must be open, then the statement is compiled, which needs the
    table, then the parameters are bound, then the statement runs. *)
Definition execute (st : statement) (conn : Connection) (cur : Cursor)
  : result (Connection * Cursor) :=
  if negb (is_open conn) then Raise ProgrammingError
  else
    let table' :=
      match st, notes conn with
      | CREATE_TABLE_IF_NOT_EXISTS, None => Some empty_table
      | _, db => db
      end in
    match table' with
    | None => Raise OperationalError
    | Some t =>
        if negb (forallb bindable (parameters st)) then Raise OverflowError
        else
          match step st t with
          | Raise e => Raise e
          | Ok (t', result_rows, inserted) =>
              Ok ({| is_open := true; notes := Some t' |},
                  {| pending := result_rows;
                     lastrowid :=
                       Some match inserted, lastrowid cur with
                            | Some id, _ => id
                            | None, Some id => id
                            | None, None => 0
                            end |})
          end
    end.

End statements.

(** [cursor.fetchall()] *)
Definition fetchall (cur : Cursor) : list row * Cursor :=
  (pending cur, {| pending := []; lastrowid := lastrowid cur |}).

(** [cursor.fetchone()] *)
Definition fetchone (cur : Cursor) : option row * Cursor :=
  match pending cur with
  | [] => (None, cur)
  | r :: rest => (Some r, {| pending := rest; lastrowid := lastrowid cur |})
  end.

(** [conn.commit()]: every statement of the program is committed before the
    next one, and there is one connection, so there is one state of the table
    to speak of. *)
Definition commit (conn : Connection) : result Connection :=
  if is_open conn then Ok conn else Raise ProgrammingError.

(** [conn.close()] *)
Definition close (conn : Connection) : Connection :=
  {| is_open := false; notes := notes conn |}.

End sqlite3.

Import sqlite3.

(** ** [class NotesManager]: the storage layer *)

Module NotesManager.

(** [self.conn] and [self.cursor]. *)
Record t : Type := { conn : Connection; cursor : Cursor }.

Section methods.
Context `{engine : Engine}.

(** [self.cursor.execute(...)] *)
Definition cursor_execute (st : statement) : M t unit :=
  fun self =>
    match execute st (conn self) (cursor self) with
    | Ok (c, cur) => Ok (tt, {| conn := c; cursor := cur |})
    | Raise e => Raise e
    end.

(** [self.cursor.fetchall()] *)
Definition cursor_fetchall : M t (list row) :=
  fun self =>
    let (rs, cur) := fetchall (cursor self) in
    Ok (rs, {| conn := conn self; cursor := cur |}).

(** [self.cursor.fetchone()] *)
Definition cursor_fetchone : M t (option row) :=
  fun self =>
    let (r, cur) := fetchone (cursor self) in
    Ok (r, {| conn := conn self; cursor := cur |}).

(** [self.conn.commit()] *)
Definition conn_commit : M t unit :=
  fun self =>
    match commit (conn self) with
    | Ok c => Ok (tt, {| conn := c; cursor := cursor self |})
    | Raise e => Raise e
    end.

Definition create_table : M t unit :=
  cursor_execute CREATE_TABLE_IF_NOT_EXISTS ;;
  conn_commit.

Definition __init__ (db_file : database) : result t :=
  match create_table {| conn := connect db_file; cursor := new_cursor |} with
  | Ok (_, self) => Ok self
  | Raise e => Raise e
  end.

Definition add_note (title content : string) : M t unit :=
  cursor_execute (INSERT title content) ;;
  conn_commit.

Definition get_all_notes : M t (list row) :=
  cursor_execute SELECT_id_title ;;
  cursor_fetchall.

Definition get_note_details (note_id : sqlvalue) : M t (option row) :=
  cursor_execute (SELECT_title_content_WHERE_id note_id) ;;
  cursor_fetchone.

Definition delete_note (note_id : sqlvalue) : M t unit :=
  cursor_execute (DELETE_WHERE_id note_id) ;;
  conn_commit.

Definition close : M t unit :=
  fun self => Ok (tt, {| conn := sqlite3.close (conn self); cursor := cursor self |}).

(** The patterns are [f'%{keyword}%']. *)
Definition search_notes (keyword : string) : M t (list row) :=
  cursor_execute
    (SELECT_id_title_WHERE_LIKE ("%" ++ keyword ++ "%") ("%" ++ keyword ++ "%"))%string ;;
  cursor_fetchall.

End methods.

End NotesManager.

(** ** [class NotesApp]: the facade *)

Module NotesApp.

(** [self.manager] *)
Record t : Type := { manager : NotesManager.t }.

(** [self.manager.method(...)]: the call runs on the manager that the
    application holds. *)
Definition on_manager {A : Type} (m : M NotesManager.t A) : M t A :=
  fun self =>
    match m (manager self) with
    | Ok (a, mgr) => Ok (a, {| manager := mgr |})
    | Raise e => Raise e
    end.

Section methods.
Context `{engine : Engine}.

Definition __init__ (db_file : database) : result t :=
  match NotesManager.__init__ db_file with
  | Ok mgr => Ok {| manager := mgr |}
  | Raise e => Raise e
  end.

Definition add_note (title content : string) : M t unit :=
  on_manager (NotesManager.add_note title content).

Definition get_all_notes : M t (list row) :=
  on_manager NotesManager.get_all_notes.

Definition get_note_details (note_id : sqlvalue) : M t (option row) :=
  on_manager (NotesManager.get_note_details note_id).

Definition delete_note (note_id : sqlvalue) : M t unit :=
  on_manager (NotesManager.delete_note note_id).

Definition close : M t unit :=
  on_manager NotesManager.close.

Definition search_notes (keyword : string) : M t (list row) :=
  on_manager (NotesManager.search_notes keyword).

End methods.

End NotesApp.

(** ** [main]: the interactive loop *)

(** The prompts of the [input] calls. *)
Inductive prompt : Type :=
| ask_choice | ask_title | ask_content | ask_details_id | ask_delete_id
| ask_keyword.

(** What the program prints, without the colours and the wording. *)
Inductive event : Type :=
| Menu                            (* colored_menu() *)
| Prompt (p : prompt)             (* the prompt of an input(...) *)
| NoteAdded
| Rule                            (* the line of twenty blocks *)
| ListEmpty
| ListHeader
| Item (id title : sqlvalue)      (* f"{note[0]}. {note[1]}" *)
| Title (v : sqlvalue)            (* note_details[0] *)
| Content (v : sqlvalue)          (* note_details[1] *)
| NotFound
| NoteDeleted
| SearchHeader (keyword : string)
| NothingFound
| InvalidChoice.

(** How a run ends: the loop was left by [break], or an exception came out
    of it. *)
Inductive status : Type :=
| Exited (app : NotesApp.t)
| Crashed (e : exn).

Definition run : Type := list event * status.

(** Print, then go on. *)
Definition say (evs : list event) (r : run) : run := (evs ++ fst r, snd r).

(** [for note in notes: print(f"{note[0]}. {note[1]}")], then go on. *)
Fixpoint print_items (notes : list row) (k : run) : run :=
  match notes with
  | [] => k
  | (id :: title :: _) :: notes' => say [Item id title] (print_items notes' k)
  | _ :: _ => ([], Crashed IndexError)
  end.

Section main.
Context `{engine : Engine}.

(** [while True: ...], from the application and the lines still to read;
    [input] at the end of the lines raises [EOFError]. *)
Fixpoint main_loop (app : NotesApp.t) (stdin : list string) {struct stdin} : run :=
  say [Menu; Prompt ask_choice]
  match stdin with
  | [] => ([], Crashed EOFError)
  | choice :: stdin =>
    if (choice =? "1")%string then
      say [Prompt ask_title]
      match stdin with
      | [] => ([], Crashed EOFError)
      | title :: stdin =>
        say [Prompt ask_content]
        match stdin with
        | [] => ([], Crashed EOFError)
        | content :: stdin =>
          match NotesApp.add_note title content app with
          | Raise e => ([], Crashed e)
          | Ok (_, app) => say [NoteAdded] (main_loop app stdin)
          end
        end
      end
    else if (choice =? "2")%string then
      match NotesApp.get_all_notes app with
      | Raise e => ([], Crashed e)
      | Ok (all_notes, app) =>
        say [Rule; if is_nil all_notes then ListEmpty else ListHeader]
          (print_items all_notes (say [Rule] (main_loop app stdin)))
      end
    else if (choice =? "3")%string then
      say [Prompt ask_details_id]
      match stdin with
      | [] => ([], Crashed EOFError)
      | note_id :: stdin =>
        match NotesApp.get_note_details (VText note_id) app with
        | Raise e => ([], Crashed e)
        | Ok (note_details, app) =>
          say [Rule]
          match note_details with
          | Some (title :: content :: _) =>
              say [Title title; Content content; Rule] (main_loop app stdin)
          | Some [title] => ([Title title], Crashed IndexError)
          | Some [] | None => say [NotFound; Rule] (main_loop app stdin)
          end
        end
      end
    else if (choice =? "4")%string then
      say [Prompt ask_delete_id]
      match stdin with
      | [] => ([], Crashed EOFError)
      | note_id :: stdin =>
        match NotesApp.delete_note (VText note_id) app with
        | Raise e => ([], Crashed e)
        | Ok (_, app) => say [NoteDeleted] (main_loop app stdin)
        end
      end
    else if (choice =? "6")%string then
      match NotesApp.close app with
      | Raise e => ([], Crashed e)
      | Ok (_, app) => ([], Exited app)
      end
    else if (choice =? "5")%string then
      say [Prompt ask_keyword]
      match stdin with
      | [] => ([], Crashed EOFError)
      | keyword :: stdin =>
        match NotesApp.search_notes keyword app with
        | Raise e => ([], Crashed e)
        | Ok (matching_notes, app) =>
          say [Rule]
          (if is_nil matching_notes
           then say [NothingFound; Rule] (main_loop app stdin)
           else say [SearchHeader keyword]
                  (print_items matching_notes (say [Rule] (main_loop app stdin))))
        end
      end
    else say [InvalidChoice] (main_loop app stdin)
  end.

(** [app = NotesApp("notes.db")], then the loop; [db_file] is what
    [notes.db] holds when the program starts. *)
Definition main (db_file : database) (stdin : list string) : run :=
  match NotesApp.__init__ db_file with
  | Raise e => ([], Crashed e)
  | Ok app => main_loop app stdin
  end.

End main.

(** ** The vocabulary of the properties *)

(** The manager has an open connection to a database whose table is [t]. *)
Definition ready (self : NotesManager.t) (t : table) : Prop :=
  is_open (NotesManager.conn self) = true
  /\ notes (NotesManager.conn self) = Some t.

(** A table as SQLite keeps it: the rows in ascending order of [id], no [id]
    twice, and no [id] above the one recorded as the largest ever given. *)
Definition consistent (t : table) : Prop :=
  StronglySorted Z.lt (map note_id (rows t))
  /\ Forall (fun r => note_id r <= seq t) (rows t).

(** The table that a manager opened on [db_file] starts from. *)
Definition table_of (db_file : database) : table :=
  match db_file with
  | Some t => t
  | None => empty_table
  end.

(** [self.cursor.lastrowid]: the id that the store gave to the last note
    added. *)
Definition lastrowid_of (self : NotesManager.t) : option Z :=
  lastrowid (NotesManager.cursor self).

(** [lastrowid] after a statement that inserts nothing: what it was, and 0
    on a cursor that has run no statement yet. *)
Definition last_insert_rowid (self : NotesManager.t) : Z :=
  match lastrowid_of self with
  | Some id => id
  | None => 0
  end.

(** *** The limits of the engine *)


(** A keyword whose pattern [%keyword%] is within the limit of LIKE: at most
    49998 bytes. *)
Definition short (keyword : string) : Prop :=
  Z.of_nat (String.length keyword) + 2 <= SQLITE_MAX_LIKE_PATTERN_LENGTH.

(** *** Containment of a keyword *)





(** The characters of a text that LIKE reads: up to its first NUL byte. *)
Definition like_text (s : string) : list (list ascii) :=
  utf8_chars (c_string (chars s)).



(** *** Spellings of an id *)






(** A text that spells no number for SQLite: neither an integer nor a real
    literal. *)
Definition not_numeric (s : string) : Prop :=
  integer_literal (chars s) = None /\ real_literal (chars s) = false.



(** *** Sequences of calls *)

Inductive call : Type :=
| Add (title content : string)
| ListAll
| Details (note_id : sqlvalue)
| Delete (note_id : sqlvalue)
| Search (keyword : string).



Section calls.
Context `{engine : Engine}.

(** One call on a manager; the result is the id given to the note when the
    call is an [Add]. *)
Definition do_call (c : call) : M NotesManager.t (list Z) :=
  match c with
  | Add title content =>
      NotesManager.add_note title content ;;
      (fun self => Ok (match lastrowid_of self with
                       | Some id => [id]
                       | None => []
                       end, self))
  | ListAll => NotesManager.get_all_notes ;; ret []
  | Details note_id => NotesManager.get_note_details note_id ;; ret []
  | Delete note_id => NotesManager.delete_note note_id ;; ret []
  | Search keyword => NotesManager.search_notes keyword ;; ret []
  end.

(** The calls made one after the other on a manager, up to the first one
    that raises: the ids given to the notes added, in the order of the calls,
    and how the calls ended. *)
Fixpoint assigned_ids (cs : list call) (self : NotesManager.t)
  : list Z * result NotesManager.t :=
  match cs with
  | [] => ([], Ok self)
  | c :: cs' =>
      match do_call c self with
      | Raise e => ([], Raise e)
      | Ok (new, self1) =>
          let (ids, final) := assigned_ids cs' self1 in (new ++ ids, final)
      end
  end.

End calls.

(** *** Facade and storage layer side by side *)

(** A call on the application and the same call on its manager end the same
    way: the same value and the manager left in the same state, or the same
    exception. *)
Definition same_outcome {A : Type}
  (facade : result (A * NotesApp.t)) (storage : result (A * NotesManager.t)) : Prop :=
  match facade, storage with
  | Ok (a, app), Ok (b, mgr) => a = b /\ app = {| NotesApp.manager := mgr |}
  | Raise e1, Raise e2 => e1 = e2
  | _, _ => False
  end.

(** *** Stores to try things on *)

(** An engine that gives no key to a real literal. *)
Definition integer_keys : Engine := fun _ => None.

(** A manager, and an application, just opened on a database that holds the
    table [t]. *)
Definition opened (t : table) : NotesManager.t :=
  {| NotesManager.conn := connect (Some t); NotesManager.cursor := new_cursor |}.

Definition started (t : table) : NotesApp.t := {| NotesApp.manager := opened t |}.

Definition shopping : note :=
  {| note_id := 1; note_title := "Shopping"; note_content := "milk, eggs" |}.

Definition todo : note :=
  {| note_id := 2; note_title := "Todo"; note_content := "write report" |}.

Definition two_notes : table := {| rows := [shopping; todo]; seq := 2 |}.

Definition sale : note :=
  {| note_id := 3; note_title := "Sale"; note_content := "50%_off" |}.

Definition three_notes : table := {| rows := [shopping; todo; sale]; seq := 3 |}.

(** The text [caf] followed by an e with an acute accent, which is two bytes
    in UTF-8. *)
Definition cafe : string :=
  "caf" ++ String "195"%char (String "169"%char EmptyString).

(** A table that has given the largest id. *)
Definition used_up : table := {| rows := [shopping]; seq := LARGEST_INT64 |}.

(** An integer one above the 64-bit ones. *)
Definition too_large : Z := LARGEST_INT64 + 1.


(** ** What each method does on an open store *)

Section storage_layer.
Context `{engine : Engine}.

Lemma add_note_ready (self : NotesManager.t) (t : table) (title content : string) :
  ready self t ->
  full t = false ->
  NotesManager.add_note title content self
  = Ok (tt, {| NotesManager.conn :=
                 {| is_open := true;
                    notes := Some {| rows := insert_row
                                       {| note_id := new_rowid t;
                                          note_title := title;
                                          note_content := content |} (rows t);
                                     seq := new_rowid t |} |};
               NotesManager.cursor :=
                 {| pending := []; lastrowid := Some (new_rowid t) |} |}).
Proof.
  destruct self as [[o db] cur]. unfold ready. simpl. intros [-> ->] Hfull.
  unfold NotesManager.add_note, bind, NotesManager.cursor_execute, execute. simpl.
  now rewrite Hfull.
Qed.

(** No id is left: [add_note] raises. *)
Lemma add_note_full (self : NotesManager.t) (t : table) (title content : string) :
  ready self t ->
  full t = true ->
  NotesManager.add_note title content self = Raise OperationalError.
Proof.
  destruct self as [[o db] cur]. unfold ready. simpl. intros [-> ->] Hfull.
  unfold NotesManager.add_note, bind, NotesManager.cursor_execute, execute. simpl.
  now rewrite Hfull.
Qed.

Lemma get_all_notes_ready (self : NotesManager.t) (t : table) :
  ready self t ->
  NotesManager.get_all_notes self
  = Ok (map id_title (rows t),
        {| NotesManager.conn := {| is_open := true; notes := Some t |};
           NotesManager.cursor :=
             {| pending := []; lastrowid := Some (last_insert_rowid self) |} |}).
Proof.
  destruct self as [[o db] [p [id|]]]; unfold ready; simpl; intros [-> ->];
    reflexivity.
Qed.

Lemma delete_note_ready (self : NotesManager.t) (t : table) (note_id : sqlvalue) :
  ready self t ->
  bindable note_id = true ->
  NotesManager.delete_note note_id self
  = Ok (tt, {| NotesManager.conn :=
                 {| is_open := true;
                    notes := Some {| rows := filter
                                       (fun r => negb (rowid_eq note_id (sqlite3.note_id r)))
                                       (rows t);
                                     seq := seq t |} |};
               NotesManager.cursor :=
                 {| pending := []; lastrowid := Some (last_insert_rowid self) |} |}).
Proof.
  destruct self as [[o db] [p [id|]]]; unfold ready; simpl; intros [-> ->] Hbind;
    unfold NotesManager.delete_note, bind, NotesManager.cursor_execute, execute; simpl;
    now rewrite Hbind.
Qed.

Lemma get_note_details_ready (self : NotesManager.t) (t : table) (note_id : sqlvalue) :
  ready self t ->
  bindable note_id = true ->
  exists cur,
    NotesManager.get_note_details note_id self
    = Ok (hd_error (map title_content
                      (filter (fun r => rowid_eq note_id (sqlite3.note_id r)) (rows t))),
          {| NotesManager.conn := {| is_open := true; notes := Some t |};
             NotesManager.cursor := cur |}).
Proof.
  destruct self as [[o db] cur]. unfold ready. simpl. intros [-> ->] Hbind.
  unfold NotesManager.get_note_details, bind, NotesManager.cursor_execute,
    NotesManager.cursor_fetchone, execute, fetchone. simpl. rewrite Hbind. simpl.
  destruct (filter _ (rows t)) as [|r rs]; simpl; eexists; reflexivity.
Qed.

(** An integer that is no 64-bit integer cannot be bound: the two methods
    that take an id raise, [OverflowError] in the embedding. *)
Lemma not_bindable_raises (self : NotesManager.t) (t : table) (note_id : sqlvalue) :
  ready self t ->
  bindable note_id = false ->
  NotesManager.get_note_details note_id self = Raise OverflowError
  /\ NotesManager.delete_note note_id self = Raise OverflowError.
Proof.
  destruct self as [[o db] cur]. unfold ready. simpl. intros [-> ->] Hbind.
  unfold NotesManager.get_note_details, NotesManager.delete_note, bind,
    NotesManager.cursor_execute, execute. simpl. now rewrite Hbind.
Qed.

Lemma init_ready (db_file : database) :
  NotesManager.__init__ db_file
  = Ok {| NotesManager.conn := {| is_open := true; notes := Some (table_of db_file) |};
          NotesManager.cursor := {| pending := []; lastrowid := Some 0 |} |}.
Proof. destruct db_file; reflexivity. Qed.


Lemma ready_intro (t : table) (cur : Cursor) :
  ready {| NotesManager.conn := {| is_open := true; notes := Some t |};
           NotesManager.cursor := cur |} t.
Proof. split; reflexivity. Qed.

(** *** The WHERE clause of a search *)

Lemma String_length_append (s1 s2 : string) :
  String.length (s1 ++ s2) = (String.length s1 + String.length s2)%nat.
Proof. induction s1 as [|c s1 IH]; simpl; [reflexivity | now rewrite IH]. Qed.

(** The pattern [%keyword%] is within the limit of LIKE exactly when the
    keyword is short. *)
Lemma pattern_too_long_short (keyword : string) :
  pattern_too_long ("%" ++ keyword ++ "%") = false <-> short keyword.
Proof.
  unfold pattern_too_long, short, SQLITE_MAX_LIKE_PATTERN_LENGTH.
  rewrite Z.ltb_ge, !String_length_append. simpl String.length. lia.
Qed.

Lemma select_where_filter (f : note -> bool) (rs : list note) :
  select_where (fun r => Ok (f r)) rs = Ok (filter f rs).
Proof.
  induction rs as [|r rs IH]; simpl; [reflexivity|]. rewrite IH. reflexivity.
Qed.

Lemma select_where_ext (f g : note -> result bool) (rs : list note) :
  (forall r, f r = g r) -> select_where f rs = select_where g rs.
Proof.
  intros Hfg. induction rs as [|r rs IH]; simpl; [reflexivity|].
  now rewrite Hfg, IH.
Qed.

(** With a pattern within the limit the clause is a test of the row. *)
Lemma select_where_like (pattern : string) (rs : list note) :
  pattern_too_long pattern = false ->
  select_where (content_or_title_like pattern pattern) rs
  = Ok (filter (fun r => like (note_content r) pattern || like (note_title r) pattern) rs).
Proof.
  intros Hshort. rewrite <- select_where_filter. apply select_where_ext. intros r.
  unfold content_or_title_like, likeFunc. rewrite Hshort.
  now destruct (like (note_content r) pattern).
Qed.


Lemma search_notes_ready (self : NotesManager.t) (t : table) (keyword : string) :
  ready self t ->
  short keyword ->
  NotesManager.search_notes keyword self
  = Ok (map id_title
          (filter (fun r => like (note_content r) ("%" ++ keyword ++ "%")
                            || like (note_title r) ("%" ++ keyword ++ "%"))
                  (rows t)),
        {| NotesManager.conn := {| is_open := true; notes := Some t |};
           NotesManager.cursor :=
             {| pending := []; lastrowid := Some (last_insert_rowid self) |} |}).
Proof.
  intros Hready Hshort. apply pattern_too_long_short in Hshort.
  destruct self as [[o db] [p [id|]]]; unfold ready in Hready; simpl in Hready;
    destruct Hready as [-> ->];
    unfold NotesManager.search_notes, bind, NotesManager.cursor_execute, execute;
    cbn -[String.append like]; rewrite (select_where_like _ _ Hshort); reflexivity.
Qed.



(** *** Row ids *)

Lemma largest_rowid_bound (rs : list note) :
  match largest_rowid rs with
  | Some m => Forall (fun r => note_id r <= m) rs
  | None => rs = []
  end.
Proof.
  induction rs as [|r rs IH]; [reflexivity|]. cbn [largest_rowid].
  destruct (largest_rowid rs) as [m|].
  - constructor; [lia|]. eapply Forall_impl; [|exact IH]. cbn beta. intros; lia.
  - subst rs. repeat constructor. lia.
Qed.


Lemma new_rowid_above (t : table) :
  seq t < new_rowid t /\ Forall (fun r => note_id r < new_rowid t) (rows t).
Proof.
  unfold new_rowid. pose proof (largest_rowid_bound (rows t)) as Hm.
  destruct (largest_rowid (rows t)) as [m|].
  - split; [lia|]. eapply Forall_impl; [|exact Hm]. cbn beta. intros; lia.
  - rewrite Hm. split; [lia | constructor].
Qed.





Lemma insert_row_last (r : note) (rs : list note) :
  Forall (fun r' => note_id r' < note_id r) rs -> insert_row r rs = rs ++ [r].
Proof.
  induction 1 as [|r' rs Hlt _ IH]; simpl; [reflexivity|].
  destruct (Z.ltb_spec (note_id r) (note_id r')); [lia|]. now rewrite IH.
Qed.





(** The table after a note is added: the note is the last row, under the id
    [new_rowid]. *)
Lemma insert_new_row (t : table) (title content : string) :
  insert_row {| note_id := new_rowid t; note_title := title; note_content := content |}
             (rows t)
  = rows t ++ [{| note_id := new_rowid t; note_title := title; note_content := content |}].
Proof. apply insert_row_last. simpl. apply new_rowid_above. Qed.

End storage_layer.

(** ** The storage layer *)

Section storage_claims.
Context `{engine : Engine}.







End storage_claims.
(** ** The facade *)

Section facade_claims.
Context `{engine : Engine}.

Lemma on_manager_same_outcome (A : Type) (m : M NotesManager.t A) (app : NotesApp.t) :
  same_outcome (NotesApp.on_manager m app) (m (NotesApp.manager app)).
Proof.
  unfold NotesApp.on_manager, same_outcome.
  destruct (m (NotesApp.manager app)) as [[a mgr]|e]; [split|]; reflexivity.
Qed.

(** C7 (delegation).  Each method of [NotesApp] ends as the method of the
    same name of [NotesManager] called on its manager with the same
    arguments: the same value returned or the same exception, the manager
    left in the same state, and the application is nothing but its
    manager. *)
Theorem facade_delegates
  (app : NotesApp.t) (title content keyword : string) (note_id : sqlvalue) :
  same_outcome (NotesApp.add_note title content app)
               (NotesManager.add_note title content (NotesApp.manager app))
  /\ same_outcome (NotesApp.get_all_notes app)
                  (NotesManager.get_all_notes (NotesApp.manager app))
  /\ same_outcome (NotesApp.get_note_details note_id app)
                  (NotesManager.get_note_details note_id (NotesApp.manager app))
  /\ same_outcome (NotesApp.delete_note note_id app)
                  (NotesManager.delete_note note_id (NotesApp.manager app))
  /\ same_outcome (NotesApp.search_notes keyword app)
                  (NotesManager.search_notes keyword (NotesApp.manager app))
  /\ same_outcome (NotesApp.close app) (NotesManager.close (NotesApp.manager app))
  /\ app = {| NotesApp.manager := NotesApp.manager app |}.
Proof.
  repeat split; try apply on_manager_same_outcome. now destruct app.
Qed.

End facade_claims.

(** ** LIKE with the pattern [%keyword%] *)

Lemma chars_append (s1 s2 : string) : chars (s1 ++ s2) = chars s1 ++ chars s2.
Proof. unfold chars. induction s1 as [|c s1 IH]; simpl; [reflexivity | now rewrite IH]. Qed.

Lemma take_while_all (p : ascii -> bool) (l : list ascii) :
  forallb p l = true -> take_while p l = l.
Proof.
  induction l as [|c l IH]; simpl; [reflexivity|].
  intros Hp. apply andb_prop in Hp. destruct Hp as [-> Hl]. now rewrite IH.
Qed.


(** *** The characters of a text *)

Lemma take_while_snoc (p : ascii -> bool) (l : list ascii) (b : ascii) :
  p b = false -> take_while p (l ++ [b]) = take_while p l.
Proof.
  intros Hb. induction l as [|c l IH]; simpl; [now rewrite Hb|].
  destruct (p c); [now rewrite IH | reflexivity].
Qed.


Lemma continuation_not_lead (c : ascii) : is_continuation c = true -> is_lead c = false.
Proof.
  unfold is_continuation, is_lead. intros Hc. apply andb_prop in Hc.
  destruct Hc as [_ Hc]. apply Z.leb_le in Hc. apply Z.leb_gt. lia.
Qed.

Lemma utf8_chars_not_lead (b : ascii) (l : list ascii) :
  is_lead b = false -> utf8_chars (b :: l) = [b] :: utf8_chars l.
Proof. intros Hb. cbn [utf8_chars]. now rewrite Hb. Qed.

(** The continuation bytes that a text starts with are characters of their
    own. *)
Lemma continuation_chars (l : list ascii) :
  (List.length (take_while is_continuation l) <= List.length (utf8_chars l))%nat.
Proof.
  induction l as [|c l IH]; [apply le_n|]. cbn [take_while].
  destruct (is_continuation c) eqn:Hc; [|apply Nat.le_0_l].
  rewrite (utf8_chars_not_lead _ _ (continuation_not_lead _ Hc)).
  cbn [List.length]. now apply le_n_S.
Qed.

(** A byte below 0x80 at the end of a text is its last character. *)
Lemma utf8_chars_snoc (l : list ascii) (b : ascii) :
  is_lead b = false -> is_continuation b = false ->
  utf8_chars (l ++ [b]) = utf8_chars l ++ [[b]].
Proof.
  intros Hlead Hcont. induction l as [|c l IH].
  - cbn [List.app]. now rewrite utf8_chars_not_lead.
  - cbn [List.app utf8_chars]. destruct (is_lead c).
    + rewrite (take_while_snoc _ _ _ Hcont), IH, skipn_app.
      replace (List.length (take_while is_continuation l) - List.length (utf8_chars l))%nat
        with 0%nat by (pose proof (continuation_chars l); lia).
      reflexivity.
    + now rewrite IH.
Qed.


(** *** The comparison *)

Lemma same_char_spec (c d : list ascii) :
  same_char c d = true <-> map tolower c = map tolower d.
Proof.
  revert d. induction c as [|x c IH]; intros [|y d]; cbn [same_char map];
    try (split; [discriminate | discriminate]); [tauto|].
  rewrite andb_true_iff, Ascii.eqb_eq, IH. split.
  - intros [-> ->]. reflexivity.
  - intros [= -> ->]. now split.
Qed.

Lemma same_char_refl (c : list ascii) : same_char c c = true.
Proof. now apply same_char_spec. Qed.

(** [%] at the head of a pattern: the rest of the pattern matches some end of
    the text. *)
Lemma pattern_compare_any (p s : list (list ascii)) :
  pattern_compare (["%"%char] :: p) s = true
  <-> exists before rest, s = before ++ rest /\ pattern_compare p rest = true.
Proof.
  induction s as [|d s IH].
  - simpl. rewrite orb_false_r. split.
    + intros Hp. now exists [], [].
    + intros (before & rest & Hs & Hp). symmetry in Hs.
      apply app_eq_nil in Hs. destruct Hs as [_ ->]. exact Hp.
  - change (pattern_compare (["%"%char] :: p) (d :: s))
      with (pattern_compare p (d :: s) || pattern_compare (["%"%char] :: p) s).
    rewrite orb_true_iff, IH. split.
    + intros [Hp|(before & rest & -> & Hp)].
      * now exists [], (d :: s).
      * now exists (d :: before), rest.
    + intros (before & rest & Hs & Hp). destruct before as [|b before]; simpl in Hs.
      * left. now rewrite Hs.
      * right. injection Hs as _ ->. now exists before, rest.
Qed.

Lemma pattern_compare_any_alone (s : list (list ascii)) :
  pattern_compare [["%"%char]] s = true.
Proof. apply pattern_compare_any. exists s, []. now rewrite app_nil_r. Qed.

(** [_] at the head of a pattern: the rest of the pattern matches the text
    after its first character. *)
Lemma pattern_compare_one (p s : list (list ascii)) :
  pattern_compare (["_"%char] :: p) s
  = match s with
    | [] => false
    | _ :: s' => pattern_compare p s'
    end.
Proof. reflexivity. Qed.

(** A character of the pattern other than [%] and [_] stands for itself, up
    to case. *)
Lemma pattern_compare_char (c : list ascii) (p s : list (list ascii)) :
  is_char "%" c = false -> is_char "_" c = false ->
  pattern_compare (c :: p) s
  = match s with
    | [] => false
    | d :: s' => same_char c d && pattern_compare p s'
    end.
Proof. intros H37 H95. cbn [pattern_compare]. now rewrite H37, H95. Qed.

Lemma is_char_eq (b : ascii) (c : list ascii) : is_char b c = true -> c = [b].
Proof.
  destruct c as [|x [|y c]]; try discriminate. cbn [is_char].
  intros Hx. apply Ascii.eqb_eq in Hx. now subst x.
Qed.





Section search_claims.
Context `{engine : Engine}.



End search_claims.
(** ** Ids written as text *)









Section text_ids.
Context `{engine : Engine}.


End text_ids.

(** *** One row for one id *)

Lemma sorted_ids_above (r : note) (rs : list note) :
  StronglySorted Z.lt (map note_id (r :: rs)) ->
  Forall (fun r' => note_id r < note_id r') rs.
Proof.
  intros Hs. simpl in Hs. apply StronglySorted_inv in Hs. destruct Hs as [_ Hall].
  apply Forall_forall. intros r' Hr'. rewrite Forall_forall in Hall.
  apply Hall. now apply in_map.
Qed.

Lemma one_row_per_id (rs : list note) (a b : note) :
  StronglySorted Z.lt (map note_id rs) ->
  In a rs -> In b rs -> note_id a = note_id b -> a = b.
Proof.
  induction rs as [|r rs IH]; intros Hs Ha Hb Hid; [contradiction|].
  pose proof (sorted_ids_above _ _ Hs) as Habove. rewrite Forall_forall in Habove.
  simpl in Hs. apply StronglySorted_inv in Hs. destruct Hs as [Hs _].
  destruct Ha as [->|Ha], Hb as [->|Hb].
  - reflexivity.
  - specialize (Habove _ Hb). lia.
  - specialize (Habove _ Ha). lia.
  - now apply IH.
Qed.


(** *** Texts that spell no number *)

Lemma take_drop_while (p : ascii -> bool) (l : list ascii) :
  l = take_while p l ++ drop_while p l.
Proof.
  induction l as [|c l IH]; simpl; [reflexivity|].
  destruct (p c); simpl; [now rewrite <- IH | reflexivity].
Qed.














Lemma not_numeric_empty : not_numeric "".
Proof. split; reflexivity. Qed.

Section text_id_claims.
Context `{engine : Engine}.



End text_id_claims.
(** ** The ids given by the store *)

Lemma sorted_filter (f : note -> bool) (rs : list note) :
  StronglySorted Z.lt (map note_id rs) ->
  StronglySorted Z.lt (map note_id (filter f rs)).
Proof.
  induction rs as [|r rs IH]; simpl; intros Hs; [constructor|].
  apply StronglySorted_inv in Hs. destruct Hs as [Hs Hall].
  destruct (f r); [|now apply IH]. simpl. constructor; [now apply IH|].
  rewrite Forall_forall in Hall |- *. intros id Hid. apply Hall.
  apply in_map_iff in Hid. destruct Hid as (r' & <- & Hr').
  apply filter_In in Hr'. apply in_map. tauto.
Qed.

Lemma sorted_last (rs : list note) (r : note) :
  StronglySorted Z.lt (map note_id rs) ->
  Forall (fun r' => note_id r' < note_id r) rs ->
  StronglySorted Z.lt (map note_id (rs ++ [r])).
Proof.
  induction rs as [|r0 rs IH]; simpl; intros Hs Hall.
  - repeat constructor.
  - apply StronglySorted_inv in Hs. destruct Hs as [Hs Hr0].
    apply Forall_cons_iff in Hall. destruct Hall as [Hlt Hall].
    constructor; [now apply IH|]. rewrite map_app, Forall_app. split; [exact Hr0|].
    now repeat constructor.
Qed.

Lemma consistent_add (t : table) (title content : string) :
  consistent t ->
  consistent {| rows := insert_row {| note_id := new_rowid t; note_title := title;
                                      note_content := content |} (rows t);
                seq := new_rowid t |}.
Proof.
  intros [Hsorted Hseq]. rewrite insert_new_row.
  destruct (new_rowid_above t) as [Hnew Habove]. split; simpl.
  - now apply sorted_last.
  - rewrite Forall_app. split.
    + eapply Forall_impl; [|exact Habove]. simpl. intros; lia.
    + repeat constructor. simpl. lia.
Qed.

Lemma consistent_delete (t : table) (f : note -> bool) :
  consistent t -> consistent {| rows := filter f (rows t); seq := seq t |}.
Proof.
  intros [Hsorted Hseq]. split; simpl; [now apply sorted_filter|].
  rewrite Forall_forall in Hseq |- *. intros r Hr. apply Hseq.
  apply filter_In in Hr. tauto.
Qed.

Lemma consistent_empty : consistent empty_table.
Proof. split; constructor. Qed.


Section id_claims.
Context `{engine : Engine}.

(** The two methods that write keep the table as SQLite keeps it. *)
Lemma add_note_consistent
  (self self1 : NotesManager.t) (t : table) (title content : string) :
  ready self t -> consistent t ->
  NotesManager.add_note title content self = Ok (tt, self1) ->
  exists t1, ready self1 t1 /\ consistent t1
             /\ seq t1 = new_rowid t /\ lastrowid_of self1 = Some (new_rowid t).
Proof.
  intros Hready Hcons. destruct (full t) eqn:Hfull.
  - now rewrite (add_note_full _ _ _ _ Hready Hfull).
  - rewrite (add_note_ready _ _ _ _ Hready Hfull). intros [= <-]. eexists.
    split; [apply ready_intro|]. split; [now apply consistent_add|]. split; reflexivity.
Qed.

Lemma delete_note_consistent
  (self self1 : NotesManager.t) (t : table) (note_id : sqlvalue) :
  ready self t -> consistent t ->
  NotesManager.delete_note note_id self = Ok (tt, self1) ->
  exists t1, ready self1 t1 /\ consistent t1 /\ seq t1 = seq t.
Proof.
  intros Hready Hcons. destruct (bindable note_id) eqn:Hbind.
  - rewrite (delete_note_ready _ _ _ Hready Hbind). intros [= <-]. eexists.
    split; [apply ready_intro|]. split; [now apply consistent_delete | reflexivity].
  - now rewrite (proj2 (not_bindable_raises _ _ _ Hready Hbind)).
Qed.








End id_claims.
(** ** The interactive loop *)

Lemma say_nil (r : run) : say [] r = r.
Proof. now destruct r. Qed.

Lemma say_say (evs evs' : list event) (r : run) :
  say evs (say evs' r) = say (evs ++ evs') r.
Proof. unfold say. simpl. now rewrite app_assoc. Qed.

Lemma print_items_id_title (rs : list note) (k : run) :
  print_items (map id_title rs) k
  = say (map (fun r => Item (VInt (note_id r)) (VText (note_title r))) rs) k.
Proof.
  induction rs as [|r rs IH]; simpl; [now rewrite say_nil|].
  now rewrite IH, say_say.
Qed.

Section facade_on_an_open_store.
Context `{engine : Engine}.








End facade_on_an_open_store.

Section loop_claims.
Context `{engine : Engine}.

Lemma main_loop_no_input (app : NotesApp.t) :
  main_loop app [] = ([Menu; Prompt ask_choice], Crashed EOFError).
Proof. reflexivity. Qed.







End loop_claims.
(** ** The program from its start *)

Section start.
Context `{engine : Engine}.

(** [NotesApp("notes.db")] on a new file, or on a file that holds the table,
    gives an open store on the table of the file, the empty table when the
    file is new. *)
Lemma app_init (db_file : database) :
  exists app,
    NotesApp.__init__ db_file = Ok app
    /\ ready (NotesApp.manager app) (table_of db_file).
Proof.
  unfold NotesApp.__init__. rewrite init_ready. eexists.
  split; [reflexivity | apply ready_intro].
Qed.

(** [main] is the loop on that store. *)
Lemma main_is_the_loop (db_file : database) (stdin : list string) :
  exists app,
    ready (NotesApp.manager app) (table_of db_file)
    /\ main db_file stdin = main_loop app stdin.
Proof.
  destruct (app_init db_file) as (app & Hinit & Hready). exists app.
  split; [exact Hready|]. unfold main. now rewrite Hinit.
Qed.

(** C6 (listing).  On every open store [get_all_notes] returns one pair
    [(id, title)] for each stored note and nothing of the content, in the
    order of the table, which is the ascending order of the ids, no id
    twice.  The table is in that order whenever the program looks at it: the
    store just created has the empty table, on which the listing is the
    empty list, and [add_note] and [delete_note] leave the table in that
    order. *)
Theorem get_all_notes_lists_every_note (self : NotesManager.t) (t : table) :
  ready self t ->
  consistent t ->
  (exists self',
      NotesManager.get_all_notes self
      = Ok (map (fun r => [VInt (note_id r); VText (note_title r)]) (rows t), self')
      /\ ready self' t)
  /\ StronglySorted Z.lt (map note_id (rows t))
  /\ (forall title content self1,
        NotesManager.add_note title content self = Ok (tt, self1) ->
        exists t1, ready self1 t1 /\ consistent t1)
  /\ (forall note_id self1,
        NotesManager.delete_note note_id self = Ok (tt, self1) ->
        exists t1, ready self1 t1 /\ consistent t1)
  /\ (exists fresh fresh',
        NotesManager.__init__ None = Ok fresh
        /\ ready fresh empty_table
        /\ consistent empty_table
        /\ NotesManager.get_all_notes fresh = Ok ([], fresh')).
Proof.
  intros Hready Hcons. split; [|split; [|split; [|split]]].
  - rewrite (get_all_notes_ready _ _ Hready). eexists.
    split; [reflexivity | apply ready_intro].
  - apply Hcons.
  - intros title content self1 Hadd.
    destruct (add_note_consistent _ _ _ _ _ Hready Hcons Hadd) as (t1 & Hr1 & Hc1 & _).
    now exists t1.
  - intros note_id self1 Hdelete.
    destruct (delete_note_consistent _ _ _ _ Hready Hcons Hdelete) as (t1 & Hr1 & Hc1 & _).
    now exists t1.
  - rewrite init_ready. do 2 eexists. split; [reflexivity|].
    split; [apply ready_intro|]. split; [apply consistent_empty | reflexivity].
Qed.

End start.

(** ** What does not depend on the engine, and what does *)

Section any_engine.
Context `{engine : Engine}.



(** And one character may be more than one byte. *)
Lemma underscore_takes_one_character :
  like cafe "c_f_" = true /\ like cafe "caf__" = false /\ like cafe "%_" = true.
Proof. repeat split. Qed.


(** A text with a fraction selects the note that the engine reads it as. *)
Lemma id_with_a_fraction :
  real_literal_rowid "1.0" = Some 1 ->
  exists self', NotesManager.get_note_details (VText "1.0") (opened two_notes)
                = Ok (Some [VText "Shopping"; VText "milk, eggs"], self').
Proof.
  intros Hkey. eexists.
  unfold NotesManager.get_note_details, bind, NotesManager.cursor_execute,
    NotesManager.cursor_fetchone, execute. cbn -[real_literal_rowid].
  unfold rowid_eq, text_rowid. cbn -[real_literal_rowid]. rewrite Hkey. reflexivity.
Qed.

(** An integer that is no 64-bit integer is no id that can be asked for. *)
Lemma id_outside_64_bits :
  NotesManager.get_note_details (VInt too_large) (opened two_notes) = Raise OverflowError
  /\ NotesManager.delete_note (VInt too_large) (opened two_notes) = Raise OverflowError.
Proof. split; reflexivity. Qed.

(** The next id is above the largest id in the table and above the largest
    id ever given, also where these are negative; in an empty table it is at
    least 1. *)
Lemma next_id_on_a_negative_counter :
  new_rowid {| rows := [{| note_id := -5; note_title := ""; note_content := "" |}];
               seq := -1 |} = 0
  /\ new_rowid {| rows := [{| note_id := -5; note_title := ""; note_content := "" |}];
                  seq := -10 |} = -4
  /\ new_rowid {| rows := []; seq := -5 |} = 1.
Proof. repeat split. Qed.

(** A store that has given the largest id takes no note. *)
Lemma no_id_left :
  NotesManager.add_note "Call" "at noon" (opened used_up) = Raise OperationalError.
Proof. reflexivity. Qed.




End any_engine.
(** ** The properties on sample stores

    None of the texts below spells a real number, so the engine is never
    asked for a key: the examples are run with [integer_keys]. *)

Section examples.
#[local] Existing Instance integer_keys.

Lemma ready_opened (t : table) : ready (opened t) t.
Proof. split; reflexivity. Qed.

Lemma consistent_two_notes : consistent two_notes.
Proof. split; repeat constructor; simpl; lia. Qed.


(** The scenario of the specification, call by call. *)
Example scenario :
  exists self1 self2 self3 self4 self5 self6 self7,
    NotesManager.__init__ None = Ok self1
    /\ NotesManager.add_note "Shopping" "milk, eggs" self1 = Ok (tt, self2)
    /\ NotesManager.add_note "Todo" "write report" self2 = Ok (tt, self3)
    /\ NotesManager.get_all_notes self3
       = Ok ([[VInt 1; VText "Shopping"]; [VInt 2; VText "Todo"]], self4)
    /\ NotesManager.search_notes "egg" self4 = Ok ([[VInt 1; VText "Shopping"]], self5)
    /\ NotesManager.delete_note (VInt 1) self5 = Ok (tt, self6)
    /\ NotesManager.get_note_details (VInt 1) self6 = Ok (None, self7)
    /\ NotesManager.get_all_notes self7 = Ok ([[VInt 2; VText "Todo"]], self7).
Proof. do 7 eexists. repeat split. Qed.

(** After the last note is deleted its id is not given again. *)
Example ids_after_a_deletion :
  exists self',
    assigned_ids [Add "Shopping" "milk, eggs"; Add "Todo" "write report";
                  Delete (VText "2"); Add "Todo" "write report"]
                 (opened empty_table)
    = ([1; 2; 3], Ok self').
Proof. eexists. reflexivity. Qed.

(** A call that raises ends the calls: the ids given before it stay. *)
Example ids_before_an_exception :
  assigned_ids [Add "Shopping" "milk, eggs"; Details (VInt too_large);
                Add "Todo" "write report"]
               (opened empty_table)
  = ([1], Raise OverflowError).
Proof. reflexivity. Qed.

(** The lines of one session, and what is printed. *)
Example session :
  exists app,
    main None ["1"; "Shopping"; "milk, eggs"; "7"; "3"; "1"; "4"; " 1 "; "2"; "6"; "2"]%string
    = ([Menu; Prompt ask_choice; Prompt ask_title; Prompt ask_content; NoteAdded;
        Menu; Prompt ask_choice; InvalidChoice;
        Menu; Prompt ask_choice; Prompt ask_details_id; Rule;
        Title (VText "Shopping"); Content (VText "milk, eggs"); Rule;
        Menu; Prompt ask_choice; Prompt ask_delete_id; NoteDeleted;
        Menu; Prompt ask_choice; Rule; ListEmpty; Rule;
        Menu; Prompt ask_choice], Exited app)
    /\ is_open (NotesManager.conn (NotesApp.manager app)) = false.
Proof. eexists. split; reflexivity. Qed.

(** A session whose input ends before a [6]. *)
Example session_without_6 :
  main None ["1"; "Shopping"; "milk, eggs"; "2"]%string
  = ([Menu; Prompt ask_choice; Prompt ask_title; Prompt ask_content; NoteAdded;
      Menu; Prompt ask_choice; Rule; ListHeader;
      Item (VInt 1) (VText "Shopping"); Rule;
      Menu; Prompt ask_choice], Crashed EOFError).
Proof. reflexivity. Qed.









(** C6 on the store of the scenario. *)
Lemma get_all_notes_lists_every_note_witness :
  ready (opened two_notes) two_notes
  /\ consistent two_notes
  /\ (exists self',
         NotesManager.get_all_notes (opened two_notes)
         = Ok (map (fun r => [VInt (note_id r); VText (note_title r)]) (rows two_notes), self')
         /\ ready self' two_notes)
  /\ StronglySorted Z.lt (map note_id (rows two_notes))
  /\ (forall title content self1,
        NotesManager.add_note title content (opened two_notes) = Ok (tt, self1) ->
        exists t1, ready self1 t1 /\ consistent t1)
  /\ (forall note_id self1,
        NotesManager.delete_note note_id (opened two_notes) = Ok (tt, self1) ->
        exists t1, ready self1 t1 /\ consistent t1)
  /\ (exists fresh fresh',
        NotesManager.__init__ None = Ok fresh
        /\ ready fresh empty_table
        /\ consistent empty_table
        /\ NotesManager.get_all_notes fresh = Ok ([], fresh')).
Proof.
  split; [apply ready_opened|]. split; [apply consistent_two_notes|].
  apply (get_all_notes_lists_every_note (opened two_notes) two_notes);
    [apply ready_opened | apply consistent_two_notes].
Defined.






End examples.
(** ** More on the storage layer *)

Section more_storage.
Context `{engine : Engine}.

(** X2 (after [close]).  On a manager whose connection is closed every
    method that runs a statement raises [ProgrammingError], whatever its
    arguments, and [close] returns once more and changes nothing. *)
Theorem closed_store_raises
  (self : NotesManager.t) (title content keyword : string) (note_id : sqlvalue) :
  is_open (NotesManager.conn self) = false ->
  NotesManager.create_table self = Raise ProgrammingError
  /\ NotesManager.add_note title content self = Raise ProgrammingError
  /\ NotesManager.get_all_notes self = Raise ProgrammingError
  /\ NotesManager.get_note_details note_id self = Raise ProgrammingError
  /\ NotesManager.delete_note note_id self = Raise ProgrammingError
  /\ NotesManager.search_notes keyword self = Raise ProgrammingError
  /\ NotesManager.close self = Ok (tt, self).
Proof.
  destruct self as [[o db] cur]. simpl. intros ->.
  repeat split; reflexivity.
Qed.

(** X3 (looking a note up by its id).  On an open, consistent store
    [get_note_details] on a 64-bit integer returns the title and content of
    the note that has this id when there is one, and [None] exactly when no
    stored note has it. *)
Theorem get_note_details_finds_the_note (self : NotesManager.t) (t : table) (id : Z) :
  ready self t ->
  consistent t ->
  fits_int64 id = true ->
  exists details self',
    NotesManager.get_note_details (VInt id) self = Ok (details, self')
    /\ (forall title content,
          details = Some [VText title; VText content]
          <-> In {| note_id := id; note_title := title; note_content := content |} (rows t))
    /\ (details = None <-> forall r, In r (rows t) -> note_id r <> id).
Proof.
  intros Hready [Hsorted _] Hfits.
  destruct (get_note_details_ready self t (VInt id) Hready Hfits) as [cur ->].
  do 2 eexists. split; [reflexivity|]. cbn [rowid_eq].
  destruct (filter (fun r => id =? note_id r) (rows t)) as [|r0 rs] eqn:Hfilter.
  - assert (Hnone : forall r, In r (rows t) -> note_id r <> id).
    { intros r Hr Hid.
      assert (Hin : In r (filter (fun r => id =? note_id r) (rows t))).
      { apply filter_In. split; [exact Hr|]. apply Z.eqb_eq. now symmetry. }
      rewrite Hfilter in Hin. contradiction. }
    split.
    + intros title content. split; [discriminate|]. intros Hin.
      now destruct (Hnone _ Hin).
    + split; [intros _; exact Hnone | reflexivity].
  - assert (Hr0 : In r0 (rows t) /\ note_id r0 = id).
    { assert (Hin : In r0 (filter (fun r => id =? note_id r) (rows t)))
        by (rewrite Hfilter; now left).
      apply filter_In in Hin. destruct Hin as [Hin Hid]. apply Z.eqb_eq in Hid. now split. }
    destruct Hr0 as [Hin0 Hid0]. simpl. split.
    + intros title content. split.
      * intros [= <- <-]. rewrite <- Hid0. now destruct r0.
      * intros Hin. f_equal.
        rewrite <- (one_row_per_id _ _ _ Hsorted Hin Hin0 (eq_sym Hid0)). reflexivity.
    + split; [discriminate|]. intros Hnone. now destruct (Hnone _ Hin0).
Qed.

End more_storage.



Section more_composition.
Context `{engine : Engine}.






(** X9 (what a search can return).  On an open, consistent store, whatever
    the keyword of at most 49998 bytes, [%] and [_] included, every pair that
    [search_notes] returns is a pair of the listing, stands for a stored
    note, and the pairs come in ascending order of id. *)
Theorem search_notes_returns_listed_notes
  (self : NotesManager.t) (t : table) (keyword : string) :
  ready self t ->
  consistent t ->
  short keyword ->
  exists kept listing self1 self2,
    NotesManager.search_notes keyword self
    = Ok (map (fun r => [VInt (note_id r); VText (note_title r)]) kept, self1)
    /\ NotesManager.get_all_notes self = Ok (listing, self2)
    /\ incl (map (fun r => [VInt (note_id r); VText (note_title r)]) kept) listing
    /\ incl kept (rows t)
    /\ StronglySorted Z.lt (map note_id kept).
Proof.
  intros Hready [Hsorted _] Hshort.
  rewrite (search_notes_ready _ _ _ Hready Hshort), (get_all_notes_ready _ _ Hready).
  do 4 eexists. split; [reflexivity|]. split; [reflexivity|].
  split; [|split; [|now apply sorted_filter]].
  - intros p Hp. apply in_map_iff in Hp. destruct Hp as (r & <- & Hr).
    apply filter_In in Hr. apply (in_map id_title). tauto.
  - intros r Hr. apply filter_In in Hr. tauto.
Qed.


(** X23 (an integer that is no 64-bit integer).  On an open store, for every
    integer below the smallest or above the largest 64-bit integer,
    [get_note_details] and [delete_note] raise: the integer cannot be bound
    to the [?] of the statement.  On a store just constructed the exception
    is [OverflowError].  The two bounds themselves are ids like any other. *)
Theorem id_outside_64_bits_raises (self : NotesManager.t) (t : table) (id : Z) :
  ready self t ->
  id < SMALLEST_INT64 \/ LARGEST_INT64 < id ->
  (exists e, NotesManager.get_note_details (VInt id) self = Raise e)
  /\ (exists e, NotesManager.delete_note (VInt id) self = Raise e)
  /\ (forall db_file,
        exists fresh,
          NotesManager.__init__ db_file = Ok fresh
          /\ NotesManager.get_note_details (VInt id) fresh = Raise OverflowError
          /\ NotesManager.delete_note (VInt id) fresh = Raise OverflowError)
  /\ (exists details self',
         NotesManager.get_note_details (VInt SMALLEST_INT64) self = Ok (details, self'))
  /\ (exists self', NotesManager.delete_note (VInt LARGEST_INT64) self = Ok (tt, self')).
Proof.
  intros Hready Hid.
  assert (Hbind : bindable (VInt id) = false).
  { cbn [bindable]. unfold fits_int64. destruct Hid as [Hid|Hid].
    - apply andb_false_intro1, Z.leb_gt, Hid.
    - apply andb_false_intro2, Z.leb_gt, Hid. }
  destruct (not_bindable_raises _ _ _ Hready Hbind) as [Hget Hdelete].
  split; [now exists OverflowError|]. split; [now exists OverflowError|]. split; [|split].
  - intros db_file. rewrite init_ready. eexists. split; [reflexivity|].
    exact (not_bindable_raises _ _ _ (ready_intro _ _) Hbind).
  - destruct (get_note_details_ready _ _ (VInt SMALLEST_INT64) Hready eq_refl) as [cur ->].
    do 2 eexists. reflexivity.
  - rewrite (delete_note_ready _ _ (VInt LARGEST_INT64) Hready eq_refl). eexists. reflexivity.
Qed.


End more_composition.
(** ** More on keywords and ids *)

Lemma tolower_keeps_special (c : ascii) :
  (code (tolower c) =? 37) = (code c =? 37)
  /\ (code (tolower c) =? 95) = (code c =? 95)
  /\ (code (tolower c) =? 0) = (code c =? 0).
Proof. destruct c as [[] [] [] [] [] [] [] []]; repeat split. Qed.

Lemma tolower_keeps_the_kind (c : ascii) :
  is_lead (tolower c) = is_lead c
  /\ is_continuation (tolower c) = is_continuation c
  /\ Ascii.eqb (tolower c) "%" = Ascii.eqb c "%"
  /\ Ascii.eqb (tolower c) "_" = Ascii.eqb c "_".
Proof. destruct c as [[] [] [] [] [] [] [] []]; repeat split. Qed.

Lemma same_special (c d : ascii) :
  tolower c = tolower d ->
  (code c =? 37) = (code d =? 37)
  /\ (code c =? 95) = (code d =? 95)
  /\ (code c =? 0) = (code d =? 0).
Proof.
  intros Hcd.
  destruct (tolower_keeps_special c) as (Hc1 & Hc2 & Hc3).
  destruct (tolower_keeps_special d) as (Hd1 & Hd2 & Hd3).
  rewrite <- Hc1, <- Hc2, <- Hc3, <- Hd1, <- Hd2, <- Hd3, Hcd. repeat split.
Qed.

Lemma take_while_tolower (l : list ascii) :
  take_while is_continuation (map tolower l) = map tolower (take_while is_continuation l).
Proof.
  induction l as [|c l IH]; [reflexivity|]. cbn [map take_while].
  destruct (tolower_keeps_the_kind c) as (_ & -> & _).
  destruct (is_continuation c); [cbn [map]; now rewrite IH | reflexivity].
Qed.

(** The case of its letters does not change how a text is cut into
    characters. *)
Lemma utf8_chars_tolower (l : list ascii) :
  utf8_chars (map tolower l) = map (map tolower) (utf8_chars l).
Proof.
  induction l as [|c l IH]; [reflexivity|]. cbn [map utf8_chars].
  destruct (tolower_keeps_the_kind c) as (-> & _).
  destruct (is_lead c); cbn [map]; rewrite IH; [|reflexivity].
  now rewrite take_while_tolower, length_map, skipn_map.
Qed.

Lemma utf8_chars_case (l1 l2 : list ascii) :
  map tolower l1 = map tolower l2 ->
  map (map tolower) (utf8_chars l1) = map (map tolower) (utf8_chars l2).
Proof. intros Hl. now rewrite <- !utf8_chars_tolower, Hl. Qed.

Lemma is_char_case (c d : list ascii) :
  map tolower c = map tolower d ->
  is_char "%" c = is_char "%" d /\ is_char "_" c = is_char "_" d.
Proof.
  destruct c as [|x [|x' c]], d as [|y [|y' d]]; try discriminate; try (split; reflexivity).
  cbn [map is_char]. intros [= Hxy].
  destruct (tolower_keeps_the_kind x) as (_ & _ & <- & <-).
  destruct (tolower_keeps_the_kind y) as (_ & _ & <- & <-).
  now rewrite Hxy.
Qed.

Lemma same_char_case (c d x : list ascii) :
  map tolower c = map tolower d -> same_char c x = same_char d x.
Proof.
  intros Hcd. apply eq_true_iff_eq. rewrite !same_char_spec. now rewrite Hcd.
Qed.

(** Two patterns that differ in the case of letters only match the same
    texts. *)
Lemma pattern_compare_case (p1 p2 s : list (list ascii)) :
  map (map tolower) p1 = map (map tolower) p2 ->
  pattern_compare p1 s = pattern_compare p2 s.
Proof.
  revert p2 s. induction p1 as [|c p1 IH]; intros [|d p2] s Hp; try discriminate Hp;
    [reflexivity|].
  cbn [map] in Hp. injection Hp as Hcd Hp.
  destruct (is_char_case _ _ Hcd) as [H37 H95].
  destruct (is_char "%" c) eqn:Hc37.
  - apply is_char_eq in Hc37. symmetry in H37. apply is_char_eq in H37. subst c d.
    apply eq_true_iff_eq. rewrite !pattern_compare_any.
    split; intros (before & rest & Hs & Hrest); exists before, rest;
      (split; [exact Hs|]); [rewrite <- (IH p2 rest Hp) | rewrite (IH p2 rest Hp)];
      exact Hrest.
  - destruct (is_char "_" c) eqn:Hc95.
    + apply is_char_eq in Hc95. symmetry in H95. apply is_char_eq in H95.
      subst c d. rewrite !pattern_compare_one. destruct s as [|x s]; [reflexivity|].
      now apply IH.
    + rewrite (pattern_compare_char c _ _ Hc37 Hc95).
      rewrite (pattern_compare_char d _ _ (eq_sym H37) (eq_sym H95)).
      destruct s as [|x s]; [reflexivity|].
      now rewrite (same_char_case _ _ _ Hcd), (IH p2 s Hp).
Qed.

Lemma c_string_case (p1 p2 : list ascii) :
  map tolower p1 = map tolower p2 ->
  map tolower (c_string p1) = map tolower (c_string p2).
Proof.
  revert p2. induction p1 as [|c p1 IH]; intros [|d p2] Hp; try discriminate Hp;
    [reflexivity|].
  cbn [map] in Hp. injection Hp as Hcd Hp.
  destruct (same_special _ _ Hcd) as (_ & _ & H0).
  unfold c_string in *. cbn [take_while]. rewrite H0.
  destruct (code d =? 0); cbn [negb map]; [reflexivity|]. now rewrite Hcd, (IH p2 Hp).
Qed.

Lemma like_case (text k1 k2 : string) :
  map tolower (chars k1) = map tolower (chars k2) ->
  like text ("%" ++ k1 ++ "%") = like text ("%" ++ k2 ++ "%").
Proof.
  intros Hk. unfold like. apply pattern_compare_case, utf8_chars_case, c_string_case.
  rewrite !chars_append, !map_app. now rewrite Hk.
Qed.

Lemma length_chars (s : string) : String.length s = List.length (chars s).
Proof. unfold chars. induction s as [|c s IH]; simpl; [reflexivity | now rewrite IH]. Qed.

(** Nor does the case of its letters change the length of a keyword. *)
Lemma pattern_too_long_case (k1 k2 : string) :
  map tolower (chars k1) = map tolower (chars k2) ->
  pattern_too_long ("%" ++ k1 ++ "%") = pattern_too_long ("%" ++ k2 ++ "%").
Proof.
  intros Hk. unfold pattern_too_long. rewrite !String_length_append, !length_chars.
  apply (f_equal (@List.length ascii)) in Hk. rewrite !length_map in Hk. now rewrite Hk.
Qed.

Section more_search.
Context `{engine : Engine}.

(** X10 (the case of a keyword).  Two keywords that differ only in the case
    of ASCII letters give the same search, on every store: the same pairs,
    or the same exception. *)
Theorem search_notes_ignores_case (self : NotesManager.t) (k1 k2 : string) :
  map tolower (chars k1) = map tolower (chars k2) ->
  NotesManager.search_notes k1 self = NotesManager.search_notes k2 self.
Proof.
  intros Hk. unfold NotesManager.search_notes, bind, NotesManager.cursor_execute, execute.
  destruct (negb (is_open (NotesManager.conn self))); [reflexivity|].
  destruct (notes (NotesManager.conn self)) as [t|]; [|reflexivity].
  cbn [parameters forallb bindable andb negb step].
  rewrite (select_where_ext
             (content_or_title_like ("%" ++ k1 ++ "%") ("%" ++ k1 ++ "%"))
             (content_or_title_like ("%" ++ k2 ++ "%") ("%" ++ k2 ++ "%")));
    [reflexivity|].
  intros r. unfold content_or_title_like, likeFunc.
  now rewrite (pattern_too_long_case _ _ Hk), !(like_case _ _ _ Hk).
Qed.


End more_search.
(** ** More on the interactive loop *)

Section more_loop.
Context `{engine : Engine}.


(** X14 (choice 2).  From an open store the line [2] prints, between two
    rules, the notice of an empty list when there is no note, and otherwise
    the header and one line for each note, with its id and title, in the
    order of the table; the store is as before. *)
Theorem choice_2_prints_the_listing (app : NotesApp.t) (t : table) (stdin : list string) :
  ready (NotesApp.manager app) t ->
  exists app',
    main_loop app ("2"%string :: stdin)
    = say ([Menu; Prompt ask_choice; Rule;
            if is_nil (rows t) then ListEmpty else ListHeader]
           ++ map (fun r => Item (VInt (note_id r)) (VText (note_title r))) (rows t)
           ++ [Rule])
          (main_loop app' stdin)
    /\ ready (NotesApp.manager app') t.
Proof.
  intros Hready. cbn [main_loop String.eqb Ascii.eqb Bool.eqb].
  unfold NotesApp.get_all_notes, NotesApp.on_manager.
  rewrite (get_all_notes_ready _ _ Hready), print_items_id_title, !say_say.
  eexists. split.
  - f_equal. rewrite <- !app_assoc. cbn [List.app]. do 3 f_equal.
    now destruct (rows t).
  - apply ready_intro.
Qed.





(** X25 (the end of the input).  When the input ends at a prompt, [EOFError]
    comes out of the loop, whatever the store: at the menu, and at the prompt
    of the title, the content, the id to view, the id to delete and the
    keyword, before any call on the store is made for that choice. *)
Theorem input_ends_at_a_prompt (app : NotesApp.t) (title : string) :
  main_loop app [] = ([Menu; Prompt ask_choice], Crashed EOFError)
  /\ main_loop app ["1"%string]
     = ([Menu; Prompt ask_choice; Prompt ask_title], Crashed EOFError)
  /\ main_loop app ["1"%string; title]
     = ([Menu; Prompt ask_choice; Prompt ask_title; Prompt ask_content], Crashed EOFError)
  /\ main_loop app ["3"%string]
     = ([Menu; Prompt ask_choice; Prompt ask_details_id], Crashed EOFError)
  /\ main_loop app ["4"%string]
     = ([Menu; Prompt ask_choice; Prompt ask_delete_id], Crashed EOFError)
  /\ main_loop app ["5"%string]
     = ([Menu; Prompt ask_choice; Prompt ask_keyword], Crashed EOFError).
Proof. repeat split. Qed.


End more_loop.
(** ** More on ids and on the start *)

Section more_ids.
Context `{engine : Engine}.


(** X20 (constructing the application).  On a new file, and on a file that
    holds the table of the program, [NotesApp(db_file)] returns: it holds the
    manager that [NotesManager(db_file)] builds, open on the table of the
    file with every note in place, and on a new file on an empty table, where
    the first note gets the id 1. *)
Theorem app_is_built_on_a_manager (db_file : database) :
  exists mgr listing self',
    NotesManager.__init__ db_file = Ok mgr
    /\ NotesApp.__init__ db_file = Ok {| NotesApp.manager := mgr |}
    /\ ready mgr (table_of db_file)
    /\ NotesManager.get_all_notes mgr = Ok (listing, self')
    /\ listing = map (fun r => [VInt (note_id r); VText (note_title r)])
                     (rows (table_of db_file))
    /\ (db_file = None ->
        listing = [] /\ full (table_of db_file) = false /\ new_rowid (table_of db_file) = 1).
Proof.
  unfold NotesApp.__init__. rewrite init_ready. do 3 eexists.
  split; [reflexivity|]. split; [reflexivity|]. split; [apply ready_intro|].
  split; [apply get_all_notes_ready, ready_intro|]. split; [reflexivity|].
  intros ->. repeat split.
Qed.

End more_ids.

(** ** A keyword that occurs as it is written *)

(** A pattern matches the text that it is, whatever characters it has. *)
Lemma pattern_compare_itself (k after : list (list ascii)) :
  pattern_compare (k ++ [["%"%char]]) (k ++ after) = true.
Proof.
  induction k as [|c k IH]; [apply pattern_compare_any_alone|]. cbn [List.app].
  destruct (is_char "%" c) eqn:H37.
  - apply is_char_eq in H37. subst c. apply pattern_compare_any.
    now exists [["%"%char]], (k ++ after).
  - destruct (is_char "_" c) eqn:H95.
    + apply is_char_eq in H95. subst c. now rewrite pattern_compare_one.
    + now rewrite (pattern_compare_char _ _ _ H37 H95), IH, same_char_refl.
Qed.

Lemma c_string_all (l : list ascii) :
  Forall (fun c => code c <> 0) l -> c_string l = l.
Proof.
  intros Hl. apply take_while_all, forallb_forall. intros c Hc.
  rewrite Forall_forall in Hl. apply negb_true_iff, Z.eqb_neq. now apply Hl.
Qed.

(** The pattern [%keyword%] of a keyword without NUL, as LIKE reads it. *)
Lemma like_pattern (keyword : string) :
  Forall (fun c => code c <> 0) (chars keyword) ->
  utf8_chars (c_string (chars ("%" ++ keyword ++ "%")))
  = ["%"%char] :: utf8_chars (chars keyword) ++ [["%"%char]].
Proof.
  intros Hk. rewrite c_string_all.
  - rewrite !chars_append. change (chars "%") with ["%"%char]. cbn [List.app].
    rewrite utf8_chars_not_lead by reflexivity.
    now rewrite utf8_chars_snoc by reflexivity.
  - rewrite !chars_append. change (chars "%") with ["%"%char]. cbn [List.app].
    constructor; [discriminate|]. apply Forall_app. split; [exact Hk|].
    repeat constructor. discriminate.
Qed.

Lemma like_literal (text keyword : string) (before after : list (list ascii)) :
  Forall (fun c => code c <> 0) (chars keyword) ->
  like_text text = before ++ utf8_chars (chars keyword) ++ after ->
  like text ("%" ++ keyword ++ "%") = true.
Proof.
  intros Hk Htext. unfold like. fold (like_text text).
  rewrite (like_pattern _ Hk), Htext. apply pattern_compare_any.
  exists before, (utf8_chars (chars keyword) ++ after).
  split; [reflexivity | apply pattern_compare_itself].
Qed.

Section more_literal.
Context `{engine : Engine}.

(** X21 (no literal match is missed).  On an open store, for a keyword of at
    most 49998 bytes without NUL, whatever other characters it has: a note
    whose title or content, read up to its first NUL byte, contains the
    characters of the keyword as they are written is among the notes that
    [search_notes] returns.  The wildcards can add notes to the result,
    never drop one. *)
Theorem search_notes_misses_no_literal_match
  (self : NotesManager.t) (t : table) (keyword : string) (r : note) :
  ready self t ->
  short keyword ->
  Forall (fun c => code c <> 0) (chars keyword) ->
  In r (rows t) ->
  (exists before after,
      like_text (note_title r) = before ++ utf8_chars (chars keyword) ++ after)
  \/ (exists before after,
         like_text (note_content r) = before ++ utf8_chars (chars keyword) ++ after) ->
  exists found self',
    NotesManager.search_notes keyword self = Ok (found, self')
    /\ In [VInt (note_id r); VText (note_title r)] found.
Proof.
  intros Hready Hshort Hk Hr Hin. rewrite (search_notes_ready _ _ _ Hready Hshort).
  do 2 eexists. split; [reflexivity|].
  apply (in_map id_title), filter_In. split; [exact Hr|]. apply orb_true_iff.
  destruct Hin as [(before & after & Htext)|(before & after & Htext)].
  - right. exact (like_literal _ _ _ _ Hk Htext).
  - left. exact (like_literal _ _ _ _ Hk Htext).
Qed.

End more_literal.
(** ** The further properties on sample stores *)

Section more_examples.
#[local] Existing Instance integer_keys.

Lemma ready_started (t : table) : ready (NotesApp.manager (started t)) t.
Proof. split; reflexivity. Qed.

(** X2 on the store of the scenario, closed. *)
Lemma closed_store_raises_witness :
  is_open (NotesManager.conn
             {| NotesManager.conn := sqlite3.close (connect (Some two_notes));
                NotesManager.cursor := new_cursor |}) = false
  /\ NotesManager.add_note "Call" "at noon"
       {| NotesManager.conn := sqlite3.close (connect (Some two_notes));
          NotesManager.cursor := new_cursor |}
     = Raise ProgrammingError
  /\ NotesManager.get_all_notes
       {| NotesManager.conn := sqlite3.close (connect (Some two_notes));
          NotesManager.cursor := new_cursor |}
     = Raise ProgrammingError.
Proof.
  split; [reflexivity|].
  destruct (closed_store_raises
              {| NotesManager.conn := sqlite3.close (connect (Some two_notes));
                 NotesManager.cursor := new_cursor |}
              "Call" "at noon" "egg" (VInt 1) eq_refl)
    as (_ & Hadd & Hall & _).
  split; [exact Hadd | exact Hall].
Defined.

(** X3 for the id 2 on the store of the scenario. *)
Lemma get_note_details_finds_the_note_witness :
  ready (opened two_notes) two_notes
  /\ consistent two_notes
  /\ fits_int64 2 = true
  /\ exists details self',
       NotesManager.get_note_details (VInt 2) (opened two_notes) = Ok (details, self')
       /\ (forall title content,
             details = Some [VText title; VText content]
             <-> In {| note_id := 2; note_title := title; note_content := content |}
                    (rows two_notes))
       /\ (details = None <-> forall r, In r (rows two_notes) -> note_id r <> 2).
Proof.
  split; [apply ready_opened|]. split; [apply consistent_two_notes|]. split; [reflexivity|].
  apply (get_note_details_finds_the_note (opened two_notes) two_notes 2);
    [apply ready_opened | apply consistent_two_notes | reflexivity].
Defined.






(** X9 on the store of the scenario, for a keyword with a wildcard. *)
Lemma search_notes_returns_listed_notes_witness :
  ready (opened two_notes) two_notes
  /\ consistent two_notes
  /\ short "o%o"
  /\ exists kept listing self1 self2,
       NotesManager.search_notes "o%o" (opened two_notes)
       = Ok (map (fun r => [VInt (note_id r); VText (note_title r)]) kept, self1)
       /\ NotesManager.get_all_notes (opened two_notes) = Ok (listing, self2)
       /\ incl (map (fun r => [VInt (note_id r); VText (note_title r)]) kept) listing
       /\ incl kept (rows two_notes)
       /\ StronglySorted Z.lt (map note_id kept).
Proof.
  assert (Hshort : short "o%o") by discriminate.
  split; [apply ready_opened|]. split; [apply consistent_two_notes|]. split; [exact Hshort|].
  apply (search_notes_returns_listed_notes (opened two_notes) two_notes "o%o");
    [apply ready_opened | apply consistent_two_notes | exact Hshort].
Defined.

(** X10 for [egg] and [EGG]. *)
Lemma search_notes_ignores_case_witness :
  map tolower (chars "egg") = map tolower (chars "EGG")
  /\ NotesManager.search_notes "egg" (opened two_notes)
     = NotesManager.search_notes "EGG" (opened two_notes).
Proof.
  split; [reflexivity|].
  apply (search_notes_ignores_case (opened two_notes) "egg" "EGG"). reflexivity.
Defined.



(** X14 from the store of the scenario. *)
Lemma choice_2_prints_the_listing_witness :
  ready (NotesApp.manager (started two_notes)) two_notes
  /\ exists app',
       main_loop (started two_notes) ["2"%string]
       = say ([Menu; Prompt ask_choice; Rule;
               if is_nil (rows two_notes) then ListEmpty else ListHeader]
              ++ map (fun r => Item (VInt (note_id r)) (VText (note_title r)))
                     (rows two_notes)
              ++ [Rule])
             (main_loop app' [])
       /\ ready (NotesApp.manager app') two_notes.
Proof.
  split; [apply ready_started|].
  apply (choice_2_prints_the_listing (started two_notes) two_notes []).
  apply ready_started.
Defined.






(** X21 for a keyword made of a wildcard, an underscore and a letter, which
    the content of the note [sale] contains as it is written. *)
Lemma search_notes_misses_no_literal_match_witness :
  ready (opened three_notes) three_notes
  /\ short "%_o"
  /\ Forall (fun c => code c <> 0) (chars "%_o")
  /\ In sale (rows three_notes)
  /\ ((exists before after,
          like_text (note_title sale) = before ++ utf8_chars (chars "%_o") ++ after)
      \/ (exists before after,
             like_text (note_content sale) = before ++ utf8_chars (chars "%_o") ++ after))
  /\ exists found self',
       NotesManager.search_notes "%_o" (opened three_notes) = Ok (found, self')
       /\ In [VInt (note_id sale); VText (note_title sale)] found.
Proof.
  assert (Hshort : short "%_o") by discriminate.
  assert (Hk : Forall (fun c => code c <> 0) (chars "%_o"))
    by (repeat constructor; discriminate).
  assert (Hin : In sale (rows three_notes)) by (right; right; left; reflexivity).
  assert (Hthere : (exists before after,
                       like_text (note_title sale)
                       = before ++ utf8_chars (chars "%_o") ++ after)
                   \/ (exists before after,
                          like_text (note_content sale)
                          = before ++ utf8_chars (chars "%_o") ++ after)).
  { right. exists [["5"%char]; ["0"%char]], [["f"%char]; ["f"%char]]. reflexivity. }
  split; [apply ready_opened|]. split; [exact Hshort|]. split; [exact Hk|].
  split; [exact Hin|]. split; [exact Hthere|].
  apply (search_notes_misses_no_literal_match (opened three_notes) three_notes "%_o" sale);
    [apply ready_opened | exact Hshort | exact Hk | exact Hin | exact Hthere].
Defined.


(** X23 for the integer one above the largest 64-bit integer. *)
Lemma id_outside_64_bits_raises_witness :
  ready (opened two_notes) two_notes
  /\ (too_large < SMALLEST_INT64 \/ LARGEST_INT64 < too_large)
  /\ (exists e, NotesManager.get_note_details (VInt too_large) (opened two_notes) = Raise e)
  /\ (exists e, NotesManager.delete_note (VInt too_large) (opened two_notes) = Raise e)
  /\ (forall db_file,
        exists fresh,
          NotesManager.__init__ db_file = Ok fresh
          /\ NotesManager.get_note_details (VInt too_large) fresh = Raise OverflowError
          /\ NotesManager.delete_note (VInt too_large) fresh = Raise OverflowError)
  /\ (exists details self',
         NotesManager.get_note_details (VInt SMALLEST_INT64) (opened two_notes)
         = Ok (details, self'))
  /\ (exists self',
         NotesManager.delete_note (VInt LARGEST_INT64) (opened two_notes) = Ok (tt, self')).
Proof.
  assert (Hid : too_large < SMALLEST_INT64 \/ LARGEST_INT64 < too_large)
    by (right; reflexivity).
  split; [apply ready_opened|]. split; [exact Hid|].
  apply (id_outside_64_bits_raises (opened two_notes) two_notes too_large);
    [apply ready_opened | exact Hid].
Defined.



End more_examples.
